(** * Three-point curve measurement: sampling and arc length

    A shallow embedding of the curve tool of the measurement toolbox
    ([src/scripts/threePointsCurve.js] and its [EntityCollection] variant
    [src/scripts/ThreePointsCurve.js]): the left-click handler that collects
    three picked positions, [createCurvePoints], which samples a spline
    through them, and [measureCurveDistance], which adds up the lengths of
    the sampled segments.

    JavaScript numbers are read as real numbers: every statement below is
    about exact arithmetic, not about the rounding of IEEE doubles. *)

From Stdlib Require Import Reals Lra Lia ZArith List Psatz.
Import ListNotations.
Open Scope R_scope.

(** ** JavaScript built-ins used by the scripts *)

Module JS.

(** [Math.round]: the nearest integer, halves going up. *)
Definition Math_round (x : R) : Z := Zfloor (x + / 2).

(** [Math.max] on two integral numbers. *)
Definition Math_max (a b : Z) : Z := Z.max a b.

(** [Array.from({ length }, (_, i) => mapFn(i))]: [ToLength] turns a
    length that is zero or negative into the empty array. *)
Definition Array_from {A : Type} (length : Z) (mapFn : nat -> A) : list A :=
  map mapFn (seq 0 (Z.to_nat length)).

(** [arr[i]]: [undefined] outside the array. *)
Definition index {A : Type} (arr : list A) (i : nat) : option A :=
  nth_error arr i.

(** [arr.reduce(callback, initialValue)]: the callback is handed the
    accumulator, the current element, its index and the whole array.  A
    callback that throws ([None]) aborts the fold. *)
Fixpoint reduce_from {A B : Type}
    (callback : B -> A -> nat -> list A -> option B)
    (arr rest : list A) (i : nat) (acc : B) : option B :=
  match rest with
  | [] => Some acc
  | currentValue :: rest' =>
      match callback acc currentValue i arr with
      | Some acc' => reduce_from callback arr rest' (S i) acc'
      | None => None
      end
  end.

Definition reduce {A B : Type}
    (callback : B -> A -> nat -> list A -> option B)
    (initialValue : B) (arr : list A) : option B :=
  reduce_from callback arr arr 0%nat initialValue.

End JS.

(** ** The part of the Cesium library the scripts call

    The library is imported by the scripts and is not among the sources;
    what they call of it is modelled here. *)

Module Cesium.

Module Cartesian3.

(** Modelled from the spec: [Cesium.Cartesian3], the Point3D of section 3,
    three real coordinates in a shared Cartesian frame. *)
Record t : Type := mk { x : R; y : R; z : R }.

Definition add (left right : t) : t :=
  mk (x left + x right) (y left + y right) (z left + z right).

Definition subtract (left right : t) : t :=
  mk (x left - x right) (y left - y right) (z left - z right).

Definition multiplyByScalar (cartesian : t) (scalar : R) : t :=
  mk (x cartesian * scalar) (y cartesian * scalar) (z cartesian * scalar).

Definition magnitudeSquared (cartesian : t) : R :=
  x cartesian * x cartesian + y cartesian * y cartesian
  + z cartesian * z cartesian.

Definition magnitude (cartesian : t) : R :=
  sqrt (magnitudeSquared cartesian).

(** Modelled from the spec: [Cesium.Cartesian3.distance], the Euclidean
    distance of section 4.3, computed as the library does: the magnitude of
    the difference. *)
Definition distance (left right : t) : R :=
  magnitude (subtract left right).

End Cartesian3.

Inductive Color : Type := RED | YELLOW.

Module HermiteSpline.

(** Modelled from the spec: [HermiteSpline.hermiteCoefficientMatrix]
    applied to the vector [(u^3, u^2, u, 1)], that is, the four cubic
    Hermite basis polynomials, weights of the first point, the second
    point, the first tangent and the second tangent. *)
Definition hermiteCoefficients (u : R) : R * R * R * R :=
  (2 * u ^ 3 - 3 * u ^ 2 + 1,
   - 2 * u ^ 3 + 3 * u ^ 2,
   u ^ 3 - 2 * u ^ 2 + u,
   u ^ 3 - u ^ 2).

End HermiteSpline.

Module CatmullRomSpline.

Import Cartesian3.

(** Modelled from the spec: [Cesium.CatmullRomSpline] belongs to the
    Cesium library, which is not among the sources.  Section 4.1
    describes it as the clamped three-point spline: knots mapped to the
    control points, the curve passing through each of them, the tangent
    at the middle knot built from the two neighbours and one-sided
    tangent estimates at the two ends.  The definitions below are the
    cubic Hermite form of that spline, with the tangent estimates of the
    library. *)
Record t : Type := mk { times : list R; points : list Cartesian3.t }.

(** Tangent estimate at the first knot: [(2 p1 - p2 - p0) / 2]. *)
Definition firstTangent (p0 p1 p2 : Cartesian3.t) : Cartesian3.t :=
  multiplyByScalar (subtract (subtract (multiplyByScalar p1 2) p2) p0) (/ 2).

(** Tangent estimate at the last knot: [(p2 - 2 p1 + p0) / 2]. *)
Definition lastTangent (p0 p1 p2 : Cartesian3.t) : Cartesian3.t :=
  multiplyByScalar (add (subtract p2 (multiplyByScalar p1 2)) p0) (/ 2).

(** Tangent at an inner knot: half the chord between its neighbours. *)
Definition innerTangent (before after : Cartesian3.t) : Cartesian3.t :=
  multiplyByScalar (subtract after before) (/ 2).

(** The weighted sum [p0 * cx + p1 * cy + p2 * cz + p3 * cw]. *)
Definition blend (p0 p1 p2 p3 : Cartesian3.t) (coefs : R * R * R * R)
    : Cartesian3.t :=
  let '(cx, cy, cz, cw) := coefs in
  add (add (add (multiplyByScalar p0 cx) (multiplyByScalar p1 cy))
           (multiplyByScalar p2 cz))
      (multiplyByScalar p3 cw).

(** Modelled from the spec: [spline.evaluate(time)] for three knots.  The
    interval that holds [time] is found ([times[i] <= time < times[i+1]],
    the last knot belonging to the last interval), [time] is rescaled to
    [u] in that interval and the Hermite segment of the interval is
    evaluated.  The scripts build no spline with another number of
    knots. *)
Definition evaluate (spline : t) (time : R) : Cartesian3.t :=
  match times spline, points spline with
  | [t0; t1; t2], [p0; p1; p2] =>
      if Rlt_dec time t1
      then
        let u := (time - t0) / (t1 - t0) in
        blend p0 p1 (firstTangent p0 p1 p2) (innerTangent p0 p2)
              (HermiteSpline.hermiteCoefficients u)
      else
        let u := (time - t1) / (t2 - t1) in
        blend p1 p2 (innerTangent p0 p2) (lastTangent p0 p1 p2)
              (HermiteSpline.hermiteCoefficients u)
  | _, _ => Cartesian3.mk 0 0 0
  end.

End CatmullRomSpline.

End Cesium.

Definition Cartesian3 : Type := Cesium.Cartesian3.t.

(** ** [measureCurveDistance] *)

(** The callback of the fold:
    [(acc, point, i, arr) =>
       i > 0 ? acc + Cesium.Cartesian3.distance(arr[i - 1], point) : acc].
    Reading a coordinate of [undefined] throws, hence the [option]. *)
Definition addSegment (acc : R) (point : Cartesian3) (i : nat)
    (arr : list Cartesian3) : option R :=
  if (0 <? i)%nat
  then match JS.index arr (i - 1) with
       | Some previous => Some (acc + Cesium.Cartesian3.distance previous point)
       | None => None
       end
  else Some acc.

(** [curvePoints.reduce(addSegment, 0)]. *)
Definition measureCurveDistance (curvePoints : list Cartesian3) : option R :=
  JS.reduce addSegment 0 curvePoints.

(** The length of the polyline through [points], by recursion on the list. *)
Fixpoint polyline_length (points : list Cartesian3) : R :=
  match points with
  | p :: (q :: _) as rest =>
      Cesium.Cartesian3.distance p q + polyline_length rest
  | _ => 0
  end.

Definition origin : Cartesian3 := Cesium.Cartesian3.mk 0 0 0.

Definition Rsum (l : list R) : R := fold_right Rplus 0 l.

(** The sum of section 4.3 as it is written:
    [sum_{i=1}^{n-1} euclideanDistance(points[i-1], points[i])]. *)
Definition segment_sum (points : list Cartesian3) : R :=
  Rsum (map (fun i => Cesium.Cartesian3.distance
                        (nth (i - 1) points origin) (nth i points origin))
            (seq 1 (length points - 1))).

(** ** [createCurvePoints] *)

(** The spline library as the sampler sees it: a constructor taking the
    knots and the control points, and an evaluation function. *)
Class SplineLibrary : Type := {
  Spline : Type;
  newSpline : list R -> list Cartesian3 -> Spline;
  splineEvaluate : Spline -> R -> Cartesian3
}.

(** The library the scripts import. *)
#[export] Instance CesiumSplines : SplineLibrary := {|
  Spline := Cesium.CatmullRomSpline.t;
  newSpline := Cesium.CatmullRomSpline.mk;
  splineEvaluate := Cesium.CatmullRomSpline.evaluate
|}.

Section Sampler.

Context {library : SplineLibrary}.

(** [new Cesium.CatmullRomSpline({ times: [0, 0.5, 1],
                                   points: [start, middle, end] })]. *)
Definition fitSpline (startPoint middlePoint endPoint : Cartesian3) : Spline :=
  newSpline [0; / 2; 1] [startPoint; middlePoint; endPoint].

(** [Array.from({ length: numInterpolationPoints }, (_, i) =>
       spline.evaluate(i / numInterpolationPoints))]. *)
Definition createCurvePoints (startPoint middlePoint endPoint : Cartesian3)
    (numInterpolationPoints : Z) : list Cartesian3 :=
  let spline := fitSpline startPoint middlePoint endPoint in
  JS.Array_from numInterpolationPoints
    (fun i => splineEvaluate spline (INR i / IZR numInterpolationPoints)).


End Sampler.

(** ** The tool and its left-click handler *)

(** Modelled from the spec: [helper.js], which builds the entities, is not
    among the sources.  The handler only hands what the three constructors
    return to the viewer and reads back the position of the point entities,
    so an entity is the record of the arguments it was built from. *)
Inductive Entity : Type :=
| createPointEntity (position : Cartesian3) (color : Cesium.Color)
| createLineEntity (positions : list Cartesian3) (color : Cesium.Color)
| createDistanceLabel (startPoint endPoint : Cartesian3) (distance : R).

(** Modelled from the spec: [p.position.getValue(Cesium.JulianDate.now())],
    the position a point entity was built from; only point entities are
    read this way and reading anything else counts as a throw. *)
Definition positionValue (p : Entity) : option Cartesian3 :=
  match p with
  | createPointEntity position _ => Some position
  | _ => None
  end.

(** [arr.map(callback)] with a callback that may throw. *)
Fixpoint mapThrowing {A B : Type} (callback : A -> option B) (arr : list A)
    : option (list B) :=
  match arr with
  | [] => Some []
  | a :: rest =>
      match callback a with
      | Some b =>
          match mapThrowing callback rest with
          | Some bs => Some (b :: bs)
          | None => None
          end
      | None => None
      end
  end.

Record Viewer : Type := {
  entities : list Entity;
  selectedEntity : option Entity;
  trackedEntity : option Entity
}.

(** One call of [createCurvePoints]: the three control points and the
    number of samples asked for. *)
Record FitCall : Type := {
  fitStart : Cartesian3;
  fitMiddle : Cartesian3;
  fitEnd : Cartesian3;
  fitSamples : Z
}.

(** The fields of a [ThreePointsCurve] object.  [fitCalls] is not a field
    of the class: it records, oldest first, the calls of [createCurvePoints]
    made so far. *)
Record ThreePointsCurve : Type := {
  viewer : Viewer;
  pointEntities : list Entity;
  lineEntities : list Entity;
  labelEntities : list Entity;
  fitCalls : list FitCall
}.

(** The two versions of the script: [threePointsCurve.js] keeps its entities
    in arrays and resets [pointEntities] alone; [ThreePointsCurve.js] keeps
    them in [EntityCollection]s and empties all three. *)
Inductive Version : Type := Arrays | EntityCollections.

(** [new ThreePointsCurve(viewer, handler, nameOverlay)]. *)
Definition constructor (v : Viewer) : ThreePointsCurve :=
  {| viewer := v; pointEntities := []; lineEntities := [];
     labelEntities := []; fitCalls := [] |}.

(** [this.viewer.selectedEntity = undefined;
     this.viewer.trackedEntity = undefined]. *)
Definition clearSelection (this : ThreePointsCurve) : ThreePointsCurve :=
  {| viewer := {| entities := entities (viewer this);
                  selectedEntity := None; trackedEntity := None |};
     pointEntities := pointEntities this;
     lineEntities := lineEntities this;
     labelEntities := labelEntities this;
     fitCalls := fitCalls this |}.

(** [this.viewer.entities.add(entity)]. *)
Definition viewerAdd (this : ThreePointsCurve) (entity : Entity)
    : ThreePointsCurve :=
  {| viewer := {| entities := entities (viewer this) ++ [entity];
                  selectedEntity := selectedEntity (viewer this);
                  trackedEntity := trackedEntity (viewer this) |};
     pointEntities := pointEntities this;
     lineEntities := lineEntities this;
     labelEntities := labelEntities this;
     fitCalls := fitCalls this |}.

(** Assignments to the fields of the tool. *)
Definition setPointEntities (this : ThreePointsCurve) (l : list Entity)
    : ThreePointsCurve :=
  {| viewer := viewer this; pointEntities := l;
     lineEntities := lineEntities this; labelEntities := labelEntities this;
     fitCalls := fitCalls this |}.

Definition setLineEntities (this : ThreePointsCurve) (l : list Entity)
    : ThreePointsCurve :=
  {| viewer := viewer this; pointEntities := pointEntities this;
     lineEntities := l; labelEntities := labelEntities this;
     fitCalls := fitCalls this |}.

Definition setLabelEntities (this : ThreePointsCurve) (l : list Entity)
    : ThreePointsCurve :=
  {| viewer := viewer this; pointEntities := pointEntities this;
     lineEntities := lineEntities this; labelEntities := l;
     fitCalls := fitCalls this |}.

Definition recordFitCall (this : ThreePointsCurve) (call : FitCall)
    : ThreePointsCurve :=
  {| viewer := viewer this; pointEntities := pointEntities this;
     lineEntities := lineEntities this; labelEntities := labelEntities this;
     fitCalls := fitCalls this ++ [call] |}.

(** The reset that ends a measurement: [this.pointEntities.length = 0] in
    the array version; [removeAll()] on the three collections in the
    other. *)
Definition resetEntities (version : Version) (this : ThreePointsCurve)
    : ThreePointsCurve :=
  match version with
  | Arrays => setPointEntities this []
  | EntityCollections =>
      setLabelEntities (setLineEntities (setPointEntities this []) []) []
  end.

(** [Math.max(Math.round(distance(start, middle) + distance(middle, end)) * 50,
             50)]. *)
Definition numInterpolationPoints (startPoint middlePoint endPoint : Cartesian3)
    : Z :=
  JS.Math_max
    (JS.Math_round (Cesium.Cartesian3.distance startPoint middlePoint
                    + Cesium.Cartesian3.distance middlePoint endPoint) * 50)
    50.

(** The mouse events the tool reacts to.  A left click carries the result
    of the pick at its position. *)
Inductive Event : Type :=
| LEFT_CLICK (picked : option Cartesian3)
| MOUSE_MOVE
| RIGHT_CLICK.

Section Handler.

Context {library : SplineLibrary}.
Variable version : Version.

(** The body of [if (this.pointEntities.length === 3) { ... }], run on the
    state [this] in which the third point entity has been stored. *)
Definition measureTriple (this : ThreePointsCurve) : option ThreePointsCurve :=
  match mapThrowing positionValue (pointEntities this) with
  | Some [startPoint; middlePoint; endPoint] =>
      let n := numInterpolationPoints startPoint middlePoint endPoint in
      let curvePoints := createCurvePoints startPoint middlePoint endPoint n in
      let this :=
        recordFitCall this
          {| fitStart := startPoint; fitMiddle := middlePoint;
             fitEnd := endPoint; fitSamples := n |} in
      let curveLineEntity := createLineEntity curvePoints Cesium.YELLOW in
      let this := viewerAdd this curveLineEntity in
      let this :=
        setLineEntities this (lineEntities this ++ [curveLineEntity]) in
      match measureCurveDistance curvePoints with
      | Some totalDistance =>
          let labelEntity :=
            createDistanceLabel startPoint endPoint totalDistance in
          let this := viewerAdd this labelEntity in
          let this :=
            setLabelEntities this (labelEntities this ++ [labelEntity]) in
          Some (resetEntities version this)
      | None => None
      end
  | _ => None
  end.

(** [handleCurveLeftClick(movement)].  [cartesian] is what
    [this.viewer.scene.pickPosition(movement.position)] returned;
    [None] is [undefined].  The result is [None] when the handler
    throws. *)
Definition handleCurveLeftClick (this : ThreePointsCurve)
    (cartesian : option Cartesian3) : option ThreePointsCurve :=
  let this := clearSelection this in
  match cartesian with
  | None => Some this
  | Some cartesian =>
      let pointEntity := createPointEntity cartesian Cesium.RED in
      let this := viewerAdd this pointEntity in
      let this := setPointEntities this (pointEntities this ++ [pointEntity]) in
      if (length (pointEntities this) =? 3)%nat
      then measureTriple this
      else Some this
  end.

(** [RIGHT_CLICK] runs the toolbox's [viewer.entities.removeAll()];
    [handleCurveMouseMove] only moves the overlay dot, which is no part of
    the state kept here. *)
Definition dispatch (this : ThreePointsCurve) (event : Event)
    : option ThreePointsCurve :=
  match event with
  | LEFT_CLICK picked => handleCurveLeftClick this picked
  | MOUSE_MOVE => Some this
  | RIGHT_CLICK =>
      Some {| viewer := {| entities := [];
                           selectedEntity := selectedEntity (viewer this);
                           trackedEntity := trackedEntity (viewer this) |};
              pointEntities := pointEntities this;
              lineEntities := lineEntities this;
              labelEntities := labelEntities this;
              fitCalls := fitCalls this |}
  end.

(** The events of a session, handled one after the other. *)
Fixpoint run (this : ThreePointsCurve) (events : list Event)
    : option ThreePointsCurve :=
  match events with
  | [] => Some this
  | event :: rest =>
      match dispatch this event with
      | Some this' => run this' rest
      | None => None
      end
  end.

End Handler.

(** ** What a session of clicks should produce *)





(** ** Polylines through the values of a function *)



(** ** Two triples of control points *)




(** ** What a session shows *)

Section Shown.

Context {library : SplineLibrary}.





End Shown.

(** ** Input actions *)

(** Modelled from the spec: [Cesium.ScreenSpaceEventType] and the table of
    input actions of a [Cesium.ScreenSpaceEventHandler] belong to the Cesium
    library, which is not among the sources.  The handler keeps at most one
    action per event type (the scripts use no keyboard modifier):
    [setInputAction] replaces it, [removeInputAction] deletes it. *)
Module ScreenSpaceEventType.

Inductive t : Type :=
| LEFT_DOWN | LEFT_UP | LEFT_CLICK | LEFT_DOUBLE_CLICK
| RIGHT_DOWN | RIGHT_UP | RIGHT_CLICK
| MIDDLE_DOWN | MIDDLE_UP | MIDDLE_CLICK
| MOUSE_MOVE | WHEEL | PINCH_START | PINCH_END | PINCH_MOVE.

Definition eq_dec (a b : t) : {a = b} + {a <> b}.
Proof. decide equality. Defined.

End ScreenSpaceEventType.

(** The callbacks the scripts register. *)
Inductive InputAction : Type :=
| CurveLeftClick    (* (movement) => this.handleCurveLeftClick(movement) *)
| CurveMouseMove    (* (movement) => this.handleCurveMouseMove(movement) *)
| PointsLeftClick   (* (movement) => this.handlePointsLeftClick(movement) *)
| PointsMouseMove   (* (movement) => this.handlePointsMouseMove(movement) *)
| RemoveAllEntities (* () => viewer.entities.removeAll() *).

Definition ScreenSpaceEventHandler : Type :=
  ScreenSpaceEventType.t -> option InputAction.

(** [handler.setInputAction(action, type)]. *)
Definition setInputAction (handler : ScreenSpaceEventHandler)
    (action : InputAction) (type : ScreenSpaceEventType.t)
    : ScreenSpaceEventHandler :=
  fun t => if ScreenSpaceEventType.eq_dec t type then Some action
           else handler t.

(** [handler.removeInputAction(type)]. *)
Definition removeInputAction (handler : ScreenSpaceEventHandler)
    (type : ScreenSpaceEventType.t) : ScreenSpaceEventHandler :=
  fun t => if ScreenSpaceEventType.eq_dec t type then None else handler t.

(** [removeAllInputActions()], the same in [ThreePointsCurve.js] and in the
    points tool: six event types, the right click not among them. *)
Definition removeAllInputActions (handler : ScreenSpaceEventHandler)
    : ScreenSpaceEventHandler :=
  let handler := removeInputAction handler ScreenSpaceEventType.LEFT_CLICK in
  let handler := removeInputAction handler ScreenSpaceEventType.LEFT_DOWN in
  let handler := removeInputAction handler ScreenSpaceEventType.LEFT_UP in
  let handler :=
    removeInputAction handler ScreenSpaceEventType.LEFT_DOUBLE_CLICK in
  let handler := removeInputAction handler ScreenSpaceEventType.MOUSE_MOVE in
  removeInputAction handler ScreenSpaceEventType.MIDDLE_CLICK.

(** [setupInputActions()] of the curve tool: the collection version first
    removes the input actions, the array version does not. *)
Definition curveSetupInputActions (version : Version)
    (handler : ScreenSpaceEventHandler) : ScreenSpaceEventHandler :=
  let handler :=
    match version with
    | Arrays => handler
    | EntityCollections => removeAllInputActions handler
    end in
  let handler :=
    setInputAction handler CurveLeftClick ScreenSpaceEventType.LEFT_CLICK in
  setInputAction handler CurveMouseMove ScreenSpaceEventType.MOUSE_MOVE.

(** [setupInputAction()] of the points tool. *)
Definition pointsSetupInputAction (handler : ScreenSpaceEventHandler)
    : ScreenSpaceEventHandler :=
  let handler := removeAllInputActions handler in
  let handler :=
    setInputAction handler PointsLeftClick ScreenSpaceEventType.LEFT_CLICK in
  setInputAction handler PointsMouseMove ScreenSpaceEventType.MOUSE_MOVE.

(** [clearAll(viewer, handler)] of the toolbox. *)
Definition clearAll (handler : ScreenSpaceEventHandler)
    : ScreenSpaceEventHandler :=
  setInputAction handler RemoveAllEntities ScreenSpaceEventType.RIGHT_CLICK.

(** The buttons of the toolbar: a click on one runs the set-up of its
    tool. *)
Inductive ToolButton : Type :=
| CurveButton (version : Version)
| PointsButton.

Definition press (handler : ScreenSpaceEventHandler) (button : ToolButton)
    : ScreenSpaceEventHandler :=
  match button with
  | CurveButton version => curveSetupInputActions version handler
  | PointsButton => pointsSetupInputAction handler
  end.

Definition leftClickOf (button : ToolButton) : InputAction :=
  match button with
  | CurveButton _ => CurveLeftClick
  | PointsButton => PointsLeftClick
  end.

Definition mouseMoveOf (button : ToolButton) : InputAction :=
  match button with
  | CurveButton _ => CurveMouseMove
  | PointsButton => PointsMouseMove
  end.

(** ** The points tool *)

(** Modelled from the spec: [Cesium.EntityCollection] belongs to the Cesium
    library, which is not among the sources.  A collection is the list of
    its entities in the order they were added ([values]), each with the id
    it carries; ids are the keys: [add] throws when the id is already
    present, [getById] finds the entity with a given id, [remove] deletes
    the entity that has the id of its argument. *)
Module EntityCollection.

Record Member : Type := { id : nat; entity : Entity }.

Definition t : Type := list Member.

Definition hasId (theId : nat) (member : Member) : bool :=
  (id member =? theId)%nat.

Definition getById (collection : t) (theId : nat) : option Member :=
  find (hasId theId) collection.

Definition contains (collection : t) (theId : nat) : bool :=
  existsb (hasId theId) collection.

Definition add (collection : t) (member : Member) : option t :=
  if contains collection (id member) then None
  else Some (collection ++ [member]).

Definition removeById (collection : t) (theId : nat) : t :=
  filter (fun member => negb (hasId theId member)) collection.

Definition remove (collection : t) (member : Member) : t :=
  removeById collection (id member).

End EntityCollection.

Module Points.

(** What [viewer.scene.pick] returns when it hits something: [pickedId] is
    the [id] property of the picked object, the entity it belongs to when it
    belongs to one. *)
Record PickedObject : Type := {
  pickedId : option EntityCollection.Member
}.

(** What the surroundings answer during one left click: the result of
    [scene.pick(movement.position)], the result of
    [scene.pickPosition(movement.position)], and the id that a new entity
    would be given. *)
Record Click : Type := {
  pickedObject : option PickedObject;
  cartesian : option Cartesian3;
  guid : nat
}.

Record Viewer : Type := {
  entities : EntityCollection.t;
  selectedEntity : option EntityCollection.Member;
  trackedEntity : option EntityCollection.Member
}.

(** The fields of a [Points] object that its click handler uses. *)
Record t : Type := {
  viewer : Viewer;
  pointEntities : EntityCollection.t
}.

(** [new Points(viewer, handler, nameOverlay)]. *)
Definition constructor (v : Viewer) : t :=
  {| viewer := v; pointEntities := [] |}.

(** The entity a click picked, if it picked one: [pickedObject.id] when
    [pickedObject && pickedObject.id] holds. *)
Definition pickedEntity (click : Click) : option EntityCollection.Member :=
  match pickedObject click with
  | Some picked => pickedId picked
  | None => None
  end.

Definition setEntities (this : t) (collection : EntityCollection.t) : t :=
  {| viewer := {| entities := collection;
                  selectedEntity := selectedEntity (viewer this);
                  trackedEntity := trackedEntity (viewer this) |};
     pointEntities := pointEntities this |}.

Definition setPointEntities (this : t) (collection : EntityCollection.t) : t :=
  {| viewer := viewer this; pointEntities := collection |}.

(** [handlePointsLeftClick(movement)]; [None] when the handler throws. *)
Definition handlePointsLeftClick (this : t) (click : Click) : option t :=
  (* this.viewer.selectedEntity = undefined *)
  let this :=
    {| viewer := {| entities := entities (viewer this);
                    selectedEntity := None;
                    trackedEntity := trackedEntity (viewer this) |};
       pointEntities := pointEntities this |} in
  match pickedObject click with
  | Some {| pickedId := Some picked |} =>
      (* if picked point entity exists, remove it *)
      match EntityCollection.getById (entities (viewer this))
                                     (EntityCollection.id picked) with
      | Some entityToRemove =>
          let this :=
            setEntities this
              (EntityCollection.remove (entities (viewer this))
                                       entityToRemove) in
          Some (setPointEntities this
                  (EntityCollection.remove (pointEntities this)
                                           entityToRemove))
      | None => Some this
      end
  | _ =>
      (* if no point entity is picked, create a new point entity *)
      match cartesian click with
      | Some cartesian =>
          let pointEntity :=
            {| EntityCollection.id := guid click;
               EntityCollection.entity :=
                 createPointEntity cartesian Cesium.RED |} in
          match EntityCollection.add (entities (viewer this)) pointEntity with
          | Some collection =>
              let this := setEntities this collection in
              match EntityCollection.add (pointEntities this) pointEntity with
              | Some collection => Some (setPointEntities this collection)
              | None => None
              end
          | None => None
          end
      | None => Some this
      end
  end.

(** The left clicks of a session, handled one after the other. *)
Fixpoint run (this : t) (clicks : list Click) : option t :=
  match clicks with
  | [] => Some this
  | click :: rest =>
      match handlePointsLeftClick this click with
      | Some this' => run this' rest
      | None => None
      end
  end.

(** The tool and the viewer agree: ids are not shared between entities,
    and the point entities of the tool are red points that the viewer
    holds. *)
Definition consistent (this : t) : Prop :=
  NoDup (map EntityCollection.id (entities (viewer this)))
  /\ NoDup (map EntityCollection.id (pointEntities this))
  /\ incl (pointEntities this) (entities (viewer this))
  /\ Forall (fun member =>
               exists position,
                 EntityCollection.entity member
                 = createPointEntity position Cesium.RED)
            (pointEntities this).

End Points.

(** A tool with one point on the map, and three clicks: on the ground, on
    the point the first click creates, and on an entity of another
    viewer. *)
Definition samplePoint : EntityCollection.Member :=
  {| EntityCollection.id := 7;
     EntityCollection.entity := createPointEntity origin Cesium.RED |}.

Definition sampleTool : Points.t :=
  {| Points.viewer :=
       {| Points.entities := [samplePoint];
          Points.selectedEntity := None;
          Points.trackedEntity := None |};
     Points.pointEntities := [samplePoint] |}.

Definition clickOnGround : Points.Click :=
  {| Points.pickedObject := None;
     Points.cartesian := Some origin;
     Points.guid := 8 |}.

Definition clickOnNewPoint : Points.Click :=
  {| Points.pickedObject :=
       Some {| Points.pickedId :=
                 Some {| EntityCollection.id := 8;
                         EntityCollection.entity :=
                           createPointEntity origin Cesium.RED |} |};
     Points.cartesian := Some origin;
     Points.guid := 9 |}.

Definition clickOnSamplePoint : Points.Click :=
  {| Points.pickedObject := Some {| Points.pickedId := Some samplePoint |};
     Points.cartesian := Some origin;
     Points.guid := 9 |}.


(** ** The overlay dot *)

(** Modelled from the spec: the inline style of the overlay element is part
    of the browser, not of the sources.  It is a table from the properties
    the scripts write to their values; a value is kept in its parts, a
    length as its number and unit.  Assigning a property replaces its
    entry; assigning [cssText] replaces the whole table. *)
Module Style.

Inductive Property : Type :=
| Display | Position | Top | Left | PointerEvents | Padding
| BackgroundColor | BorderRadius | Width | Height.

Inductive Value : Type :=
| Keyword_none | Keyword_block | Keyword_absolute | Keyword_yellow
| Number_0
| Px (number : R)
| Percent (number : R).

Definition t : Type := Property -> option Value.

Definition eq_dec (a b : Property) : {a = b} + {a <> b}.
Proof. decide equality. Defined.

(** [element.style.property = value]. *)
Definition set (style : t) (property : Property) (value : Value) : t :=
  fun p => if eq_dec p property then Some value else style p.

(** [element.style.cssText = "property: value; ..."]. *)
Definition cssText (declarations : list (Property * Value)) : t :=
  fold_left (fun style declaration =>
               set style (fst declaration) (snd declaration))
            declarations (fun _ => None).

End Style.

(** The style [buttonsSetup] gives the overlay when it creates it. *)
Definition overlayStyle : Style.t :=
  let style : Style.t := fun _ => None in
  let style := Style.set style Style.Display Style.Keyword_none in
  let style := Style.set style Style.Position Style.Keyword_absolute in
  let style := Style.set style Style.Top Style.Number_0 in
  let style := Style.set style Style.Left Style.Number_0 in
  let style := Style.set style Style.PointerEvents Style.Keyword_none in
  Style.set style Style.Padding (Style.Px 4).

(** What the scene answers during one mouse move: whether [scene.pick]
    hit something, the result of [scene.pickPosition], and the result of
    [wgs84ToWindowCoordinates] on that position ([None] is [undefined]). *)
Record Move : Type := {
  movePicked : bool;
  moveCartesian : option Cartesian3;
  moveScreenPosition : option (R * R)
}.

(** How a handler ends, with the style it leaves behind. *)
Inductive Outcome : Type :=
| Returned (style : Style.t)
| Threw (style : Style.t).

(** [updateMovingDot(cartesian)], the same in [ThreePointsCurve.js] and in
    the points tool.  The display is set before the screen position is
    read, and reading a coordinate of [undefined] throws. *)
Definition updateMovingDot (style : Style.t) (screenPosition : option (R * R))
    : Outcome :=
  let style := Style.set style Style.Display Style.Keyword_block in
  match screenPosition with
  | None => Threw style
  | Some (x, y) =>
      let style := Style.set style Style.Left (Style.Px (x - 5)) in
      let style := Style.set style Style.Top (Style.Px (y - 5)) in
      let style :=
        Style.set style Style.BackgroundColor Style.Keyword_yellow in
      let style := Style.set style Style.BorderRadius (Style.Percent 50) in
      let style := Style.set style Style.Width (Style.Px 1) in
      Returned (Style.set style Style.Height (Style.Px 1))
  end.

(** [handleCurveMouseMove(movement)] of [threePointsCurve.js]: the whole
    style is written at once through [cssText]; the text is built, and the
    screen position read, before anything is assigned. *)
Definition handleCurveMouseMove_cssText (style : Style.t) (move : Move)
    : Outcome :=
  if negb (movePicked move) then Returned style
  else
    match moveCartesian move with
    | None => Returned style
    | Some _ =>
        match moveScreenPosition move with
        | None => Threw style
        | Some (x, y) =>
            Returned
              (Style.cssText
                 [(Style.Display, Style.Keyword_block);
                  (Style.Left, Style.Px (x - 5));
                  (Style.Top, Style.Px (y - 5));
                  (Style.BackgroundColor, Style.Keyword_yellow);
                  (Style.BorderRadius, Style.Percent 50);
                  (Style.Width, Style.Px 1);
                  (Style.Height, Style.Px 1)])
        end
    end.

(** [handleCurveMouseMove(movement)] of [ThreePointsCurve.js]. *)
Definition handleCurveMouseMove (style : Style.t) (move : Move) : Outcome :=
  if movePicked move
  then match moveCartesian move with
       | None => Returned style
       | Some _ => updateMovingDot style (moveScreenPosition move)
       end
  else Returned style.

(** [handlePointsMouseMove(movement)]. *)
Definition handlePointsMouseMove (style : Style.t) (move : Move) : Outcome :=
  if movePicked move
  then match moveCartesian move with
       | None => Returned style
       | Some _ => updateMovingDot style (moveScreenPosition move)
       end
  else Returned (Style.set style Style.Display Style.Keyword_none).

(** The mouse-move handler of the tool behind a button. *)
Definition handleMouseMove (button : ToolButton) (style : Style.t)
    (move : Move) : Outcome :=
  match button with
  | CurveButton Arrays => handleCurveMouseMove_cssText style move
  | CurveButton EntityCollections => handleCurveMouseMove style move
  | PointsButton => handlePointsMouseMove style move
  end.

Definition styleOf (outcome : Outcome) : Style.t :=
  match outcome with
  | Returned style => style
  | Threw style => style
  end.

(** ** Distances *)

Section Distance.

Import Cesium.Cartesian3.

Lemma magnitudeSquared_nonneg (v : Cartesian3) : 0 <= magnitudeSquared v.
Proof. unfold magnitudeSquared. nra. Qed.

Lemma distance_nonneg (p q : Cartesian3) : 0 <= distance p q.
Proof. unfold distance, magnitude. apply sqrt_pos. Qed.

Lemma distance_sym (p q : Cartesian3) : distance p q = distance q p.
Proof.
  unfold distance, magnitude. f_equal.
  unfold magnitudeSquared, subtract; simpl. ring.
Qed.


End Distance.

(** ** The fold computes the polyline length *)

Lemma polyline_length_nonneg (points : list Cartesian3) :
  0 <= polyline_length points.
Proof.
  induction points as [|p [|q rest] IH]; simpl; try lra.
  pose proof (distance_nonneg p q). simpl in IH. lra.
Qed.

(** Invariant of the fold: once the element before [rest] is [previous],
    the fold adds the length of the polyline [previous :: rest]. *)
Lemma reduce_from_polyline (before rest : list Cartesian3)
      (previous : Cartesian3) (acc : R) :
  JS.reduce_from addSegment (before ++ previous :: rest) rest
                 (S (length before)) acc
  = Some (acc + polyline_length (previous :: rest)).
Proof.
  revert before previous acc.
  induction rest as [|point rest IH]; intros before previous acc.
  - simpl. f_equal. lra.
  - cbn [JS.reduce_from].
    assert (Hstep : addSegment acc point (S (length before))
                      (before ++ previous :: point :: rest)
                    = Some (acc + Cesium.Cartesian3.distance previous point)).
    { unfold addSegment, JS.index. cbn [Nat.ltb Nat.leb].
      replace (S (length before) - 1)%nat with (length before) by lia.
      rewrite nth_error_app2 by lia.
      rewrite Nat.sub_diag. reflexivity. }
    rewrite Hstep.
    specialize (IH (before ++ [previous]) point
                   (acc + Cesium.Cartesian3.distance previous point)).
    rewrite <- app_assoc in IH. cbn [app] in IH.
    rewrite length_app in IH. cbn [length] in IH.
    replace (length before + 1)%nat with (S (length before)) in IH by lia.
    rewrite IH. f_equal. cbn [polyline_length]. lra.
Qed.

Lemma measureCurveDistance_polyline (curvePoints : list Cartesian3) :
  measureCurveDistance curvePoints = Some (polyline_length curvePoints).
Proof.
  destruct curvePoints as [|p rest].
  - reflexivity.
  - unfold measureCurveDistance, JS.reduce. cbn [JS.reduce_from].
    change (addSegment 0 p 0%nat (p :: rest)) with (Some 0). cbv beta iota.
    pose proof (reduce_from_polyline [] rest p 0) as H.
    cbn [app length] in H. rewrite H. f_equal. lra.
Qed.

(** The indexed sum of the specification is the same number. *)
Lemma segment_sum_cons (p q : Cartesian3) (rest : list Cartesian3) :
  segment_sum (p :: q :: rest)
  = Cesium.Cartesian3.distance p q + segment_sum (q :: rest).
Proof.
  unfold segment_sum.
  replace (length (p :: q :: rest) - 1)%nat with (S (length rest))
    by (simpl; lia).
  replace (length (q :: rest) - 1)%nat with (length rest) by (simpl; lia).
  change (seq 1 (S (length rest))) with (1%nat :: seq 2 (length rest)).
  rewrite <- (seq_shift (length rest) 1).
  unfold Rsum. cbn [map fold_right]. rewrite map_map. f_equal. f_equal.
  apply map_ext_in. intros i Hi. apply in_seq in Hi.
  destruct i as [|i]; [lia|].
  replace (S (S i) - 1)%nat with (S i) by lia.
  replace (S i - 1)%nat with i by lia. reflexivity.
Qed.

Lemma segment_sum_polyline (points : list Cartesian3) :
  segment_sum points = polyline_length points.
Proof.
  induction points as [|p [|q rest] IH]; try reflexivity.
  rewrite segment_sum_cons, IH. reflexivity.
Qed.

(** ** Reversal *)



(** ** Claims on [measureCurveDistance] *)

(** C1: for every list of points [measureCurveDistance] returns the sum over
    [i = 1 .. n-1] of the distance between [points[i-1]] and [points[i]];
    with no point or one point it returns 0; the number returned is never
    negative. *)
Theorem measureCurveDistance_sum (points : list Cartesian3) :
  measureCurveDistance points = Some (segment_sum points)
  /\ ((length points <= 1)%nat -> measureCurveDistance points = Some 0)
  /\ (exists total,
        measureCurveDistance points = Some total /\ 0 <= total).
Proof.
  rewrite measureCurveDistance_polyline, segment_sum_polyline.
  split; [reflexivity|]. split.
  - intros Hlen. destruct points as [|p [|q rest]]; try reflexivity.
    simpl in Hlen. lia.
  - exists (polyline_length points). split; [reflexivity|].
    apply polyline_length_nonneg.
Qed.

(** The short-list part of C1 on the one-point list of the origin. *)
Lemma measureCurveDistance_sum_witness :
  measureCurveDistance [origin] = Some 0.
Proof.
  apply (proj1 (proj2 (measureCurveDistance_sum [origin]))).
  simpl. lia.
Defined.


(** ** Claims on [createCurvePoints] *)

Section SamplerFacts.

Context {library : SplineLibrary}.
Variables startPoint middlePoint endPoint : Cartesian3.






End SamplerFacts.


(** ** The left-click handler *)

Section HandlerFacts.

Context {library : SplineLibrary}.
Variable version : Version.






End HandlerFacts.

(** ** Sessions *)





Section SessionFacts.

Context {library : SplineLibrary}.
Variable version : Version.



End SessionFacts.

(** ** Claims on the handler *)

Lemma Math_round_nonneg (x : R) : 0 <= x -> (0 <= JS.Math_round x)%Z.
Proof.
  intros Hx. unfold JS.Math_round. apply Zfloor_lub. simpl. lra.
Qed.



(** The scenario of section 8: the control points (0,0,0), (1,1,0), (2,0,0)
    ask for 150 samples. *)
Example numInterpolationPoints_scenario :
  numInterpolationPoints (Cesium.Cartesian3.mk 0 0 0)
                         (Cesium.Cartesian3.mk 1 1 0)
                         (Cesium.Cartesian3.mk 2 0 0) = 150%Z.
Proof.
  unfold numInterpolationPoints, JS.Math_max, JS.Math_round.
  unfold Cesium.Cartesian3.distance, Cesium.Cartesian3.magnitude,
    Cesium.Cartesian3.magnitudeSquared, Cesium.Cartesian3.subtract.
  cbn [Cesium.Cartesian3.x Cesium.Cartesian3.y Cesium.Cartesian3.z].
  replace ((0 - 1) * (0 - 1) + (0 - 1) * (0 - 1) + (0 - 0) * (0 - 0)) with 2
    by ring.
  replace ((1 - 2) * (1 - 2) + (1 - 0) * (1 - 0) + (0 - 0) * (0 - 0)) with 2
    by ring.
  assert (Hlow : 5 / 4 < sqrt 2).
  { rewrite <- (sqrt_square (5 / 4)) by lra. apply sqrt_lt_1_alt. lra. }
  assert (Hhigh : sqrt 2 < 3 / 2).
  { rewrite <- (sqrt_square (3 / 2)) by lra. apply sqrt_lt_1_alt. lra. }
  rewrite (Zfloor_eq 3) by (simpl; lra). reflexivity.
Qed.

Section HandlerClaims.

Context {library : SplineLibrary}.
Variable version : Version.


(** C8: a left click whose pick is undefined ends the handler at once and
    without an exception: no point entity is stored, [createCurvePoints]
    is not called, and the entities of the tool and of the viewer are
    what they were. *)
Theorem undefined_pick_ignored (this : ThreePointsCurve) :
  exists this',
    handleCurveLeftClick version this None = Some this'
    /\ pointEntities this' = pointEntities this
    /\ fitCalls this' = fitCalls this
    /\ lineEntities this' = lineEntities this
    /\ labelEntities this' = labelEntities this
    /\ entities (viewer this') = entities (viewer this).
Proof.
  exists (clearSelection this). repeat split; reflexivity.
Qed.


End HandlerClaims.


(** ** The spline through three points *)

Section SplineFacts.

Import Cesium.Cartesian3 Cesium.CatmullRomSpline Cesium.HermiteSpline.

Lemma Cartesian3_eq (p q : Cartesian3) :
  x p = x q -> y p = y q -> z p = z q -> p = q.
Proof. destruct p, q; simpl; intros -> -> ->; reflexivity. Qed.

Variables a b c : Cartesian3.

(** Before the middle knot the first Hermite segment is used ... *)
Lemma spline_first_half (t : R) :
  t < / 2 ->
  splineEvaluate (fitSpline a b c) t
  = blend a b (firstTangent a b c) (innerTangent a c)
          (hermiteCoefficients (2 * t)).
Proof.
  intros Ht. cbn [splineEvaluate fitSpline newSpline CesiumSplines].
  unfold evaluate. cbn [times points].
  destruct (Rlt_dec t (/ 2)) as [_|Hge]; [|contradiction].
  do 2 f_equal. field.
Qed.

(** ... and from the middle knot on, the second. *)
Lemma spline_second_half (t : R) :
  / 2 <= t ->
  splineEvaluate (fitSpline a b c) t
  = blend b c (innerTangent a c) (lastTangent a b c)
          (hermiteCoefficients (2 * t - 1)).
Proof.
  intros Ht. cbn [splineEvaluate fitSpline newSpline CesiumSplines].
  unfold evaluate. cbn [times points].
  destruct (Rlt_dec t (/ 2)) as [Hlt|_]; [lra|].
  do 2 f_equal. field.
Qed.

Lemma spline_at_start : splineEvaluate (fitSpline a b c) 0 = a.
Proof.
  rewrite spline_first_half by lra.
  apply Cartesian3_eq;
    unfold blend, hermiteCoefficients, firstTangent, innerTangent,
      add, subtract, multiplyByScalar; cbn [x y z]; ring.
Qed.

Lemma spline_at_middle : splineEvaluate (fitSpline a b c) (/ 2) = b.
Proof.
  rewrite spline_second_half by lra.
  apply Cartesian3_eq;
    unfold blend, hermiteCoefficients, lastTangent, innerTangent,
      add, subtract, multiplyByScalar; cbn [x y z]; field.
Qed.

Lemma spline_at_end : splineEvaluate (fitSpline a b c) 1 = c.
Proof.
  rewrite spline_second_half by lra.
  apply Cartesian3_eq;
    unfold blend, hermiteCoefficients, lastTangent, innerTangent,
      add, subtract, multiplyByScalar; cbn [x y z]; field.
Qed.

End SplineFacts.

(** *** The end of the curve *)

(** The Cauchy-Schwarz bound on one coordinate of the second segment. *)
Lemma second_segment_coordinate_bound (pa pb pc u : R) :
  0 <= u <= 1 ->
  (pa * (u / 2) + pb * (u * u - u - 1) + pc * (- (u * u) + u / 2 + 1)) ^ 2
  <= 3 * (pa * pa + pb * pb + pc * pc).
Proof.
  intros [Hu0 Hu1].
  set (kc := - (u * u) + u / 2 + 1). set (kb := u * u - u - 1).
  set (ka := u / 2).
  assert (Huu : 0 <= u * (1 - u)) by (apply Rmult_le_pos; lra).
  pose proof (pow2_ge_0 (u - / 2)) as Hhalf.
  pose proof (pow2_ge_0 (u - / 4)) as Hquarter.
  assert (Hka : 0 <= ka <= / 2) by (unfold ka; lra).
  assert (Hkb : - (5 / 4) <= kb <= -1) by (unfold kb; split; nra).
  assert (Hkc : / 2 <= kc <= 17 / 16) by (unfold kc; split; nra).
  clearbody ka kb kc.
  assert (Hsum : ka * ka + kb * kb + kc * kc <= 3).
  { assert (ka * ka <= / 4) by nra.
    assert (kb * kb <= 25 / 16) by nra.
    assert (kc * kc <= 289 / 256) by nra. lra. }
  assert (Hlagrange :
            (pa * pa + pb * pb + pc * pc) * (ka * ka + kb * kb + kc * kc)
            - (pa * ka + pb * kb + pc * kc) ^ 2
            = (pa * kb - pb * ka) ^ 2 + (pa * kc - pc * ka) ^ 2
              + (pb * kc - pc * kb) ^ 2) by ring.
  assert (Hsq : 0 <= (pa * kb - pb * ka) ^ 2 + (pa * kc - pc * ka) ^ 2
                     + (pb * kc - pc * kb) ^ 2).
  { pose proof (pow2_ge_0 (pa * kb - pb * ka)).
    pose proof (pow2_ge_0 (pa * kc - pc * ka)).
    pose proof (pow2_ge_0 (pb * kc - pc * kb)). lra. }
  assert (Hnorm : 0 <= pa * pa + pb * pb + pc * pc) by nra.
  assert (Hprod : 0 <= (pa * pa + pb * pb + pc * pc)
                       * (3 - (ka * ka + kb * kb + kc * kc)))
    by (apply Rmult_le_pos; lra).
  nra.
Qed.

Section SplineEnd.

Import Cesium.Cartesian3 Cesium.CatmullRomSpline Cesium.HermiteSpline.

Variables a b c : Cartesian3.

(** On the second segment the squared distance to the end point is at
    most [12 (1 - t)^2] times the squared size of the control points. *)
Lemma spline_near_end (t : R) :
  / 2 <= t <= 1 ->
  magnitudeSquared (subtract (splineEvaluate (fitSpline a b c) t) c)
  <= 12 * (1 - t) ^ 2
     * (magnitudeSquared a + magnitudeSquared b + magnitudeSquared c).
Proof.
  intros Ht. rewrite spline_second_half by lra.
  set (u := 2 * t - 1).
  assert (Hu : 0 <= u <= 1) by (unfold u; lra).
  pose proof (second_segment_coordinate_bound (x a) (x b) (x c) u Hu) as Hx.
  pose proof (second_segment_coordinate_bound (y a) (y b) (y c) u Hu) as Hy.
  pose proof (second_segment_coordinate_bound (z a) (z b) (z c) u Hu) as Hz.
  unfold magnitudeSquared, blend, hermiteCoefficients, lastTangent,
    innerTangent, add, subtract, multiplyByScalar; cbn [x y z].
  fold u.
  assert (Hcoord : forall pa pb pc : R,
             (pb * (2 * u ^ 3 - 3 * u ^ 2 + 1)
              + pc * (- 2 * u ^ 3 + 3 * u ^ 2)
              + (pc - pa) * / 2 * (u ^ 3 - 2 * u ^ 2 + u)
              + (pc - pb * 2 + pa) * / 2 * (u ^ 3 - u ^ 2) - pc)
             = (u - 1)
               * (pa * (u / 2) + pb * (u * u - u - 1)
                  + pc * (- (u * u) + u / 2 + 1))) by (intros; field).
  rewrite (Hcoord (x a) (x b) (x c)), (Hcoord (y a) (y b) (y c)),
    (Hcoord (z a) (z b) (z c)).
  assert (Hgap : (u - 1) * (u - 1) = 4 * (1 - t) ^ 2) by (unfold u; ring).
  assert (Hgap0 : 0 <= (1 - t) ^ 2) by apply pow2_ge_0.
  nra.
Qed.

(** The curve comes as close to the end point as one likes. *)
Lemma spline_approaches_end (eps : R) :
  0 < eps ->
  exists delta : R,
    0 < delta
    /\ forall t : R,
         1 - delta < t < 1 ->
         distance (splineEvaluate (fitSpline a b c) t) c < eps.
Proof.
  intros Heps.
  set (S := magnitudeSquared a + magnitudeSquared b + magnitudeSquared c).
  assert (HS : 0 <= S).
  { pose proof (magnitudeSquared_nonneg a).
    pose proof (magnitudeSquared_nonneg b).
    pose proof (magnitudeSquared_nonneg c). unfold S. lra. }
  set (d := eps / (4 * (S + 1))).
  assert (Hd : 0 < d) by (apply Rdiv_lt_0_compat; lra).
  assert (Heq : eps = 4 * (S + 1) * d) by (unfold d; field; lra).
  exists (Rmin (/ 2) d). split; [apply Rmin_pos; lra|].
  intros t [Hlow Hhigh].
  pose proof (Rmin_l (/ 2) d) as Hmin1.
  pose proof (Rmin_r (/ 2) d) as Hmin2.
  assert (Ht : / 2 <= t <= 1) by lra.
  pose proof (spline_near_end t Ht) as Hnear. fold S in Hnear.
  unfold distance, magnitude.
  rewrite <- (sqrt_square eps) by lra.
  apply sqrt_lt_1_alt. split; [apply magnitudeSquared_nonneg|].
  eapply Rle_lt_trans; [exact Hnear|].
  assert (Hgap : 0 < 1 - t < d) by lra.
  assert (Hgap2 : (1 - t) ^ 2 <= d * d) by nra.
  rewrite Heq.
  assert (Hdd : 0 < d * d) by nra.
  nra.
Qed.

End SplineEnd.

(** C4: the spline fitted to [(a, b, c)] is at [a] for the parameter 0, at
    [b] for the parameter 0.5, and comes arbitrarily close to [c] as the
    parameter tends to 1 from below. *)
Theorem spline_passes_through (a b c : Cartesian3) :
  splineEvaluate (fitSpline a b c) 0 = a
  /\ splineEvaluate (fitSpline a b c) (/ 2) = b
  /\ (forall eps : R,
        0 < eps ->
        exists delta : R,
          0 < delta
          /\ forall t : R,
               1 - delta < t < 1 ->
               Cesium.Cartesian3.distance
                 (splineEvaluate (fitSpline a b c) t) c < eps).
Proof.
  split; [apply spline_at_start|]. split; [apply spline_at_middle|].
  apply spline_approaches_end.
Qed.

(** C4 for the triple of section 8, within the distance 1 of the end. *)
Lemma spline_passes_through_witness :
  exists delta : R,
    0 < delta
    /\ forall t : R,
         1 - delta < t < 1 ->
         Cesium.Cartesian3.distance
           (splineEvaluate
              (fitSpline (Cesium.Cartesian3.mk 0 0 0)
                         (Cesium.Cartesian3.mk 1 1 0)
                         (Cesium.Cartesian3.mk 2 0 0)) t)
           (Cesium.Cartesian3.mk 2 0 0) < 1.
Proof.
  apply (proj2 (proj2 (spline_passes_through
                         (Cesium.Cartesian3.mk 0 0 0)
                         (Cesium.Cartesian3.mk 1 1 0)
                         (Cesium.Cartesian3.mk 2 0 0)))).
  lra.
Defined.

(** ** The triangle inequality *)



(** ** Paths *)

Section Paths.

Variable g : nat -> Cartesian3.






End Paths.


(** ** The length of the sampled curve *)

Section SampledLength.

Context {library : SplineLibrary}.
Variables a b c : Cartesian3.





End SampledLength.


(** ** Coincident control points *)




(** ** The straight-line bound *)


(** *** Three equally spaced points on a line *)





Section StraightLine.

Import Cesium.Cartesian3 Cesium.CatmullRomSpline Cesium.HermiteSpline.



End StraightLine.





(** ** Refinement *)





(** * Further properties *)

(** ** More on [measureCurveDistance] *)











(** *** Moving and scaling the points *)

Lemma distance_translate (p q offset : Cartesian3) :
  Cesium.Cartesian3.distance (Cesium.Cartesian3.add p offset)
                             (Cesium.Cartesian3.add q offset)
  = Cesium.Cartesian3.distance p q.
Proof.
  unfold Cesium.Cartesian3.distance, Cesium.Cartesian3.magnitude. f_equal.
  unfold Cesium.Cartesian3.magnitudeSquared, Cesium.Cartesian3.subtract,
    Cesium.Cartesian3.add.
  cbn [Cesium.Cartesian3.x Cesium.Cartesian3.y Cesium.Cartesian3.z]. ring.
Qed.




(** ** More on the number of samples *)




(** X7: the number of samples does not change when the first and the last
    control point are exchanged, nor when the three control points are
    moved by the same offset. *)
Theorem numInterpolationPoints_symmetry (a b c offset : Cartesian3) :
  numInterpolationPoints c b a = numInterpolationPoints a b c
  /\ numInterpolationPoints (Cesium.Cartesian3.add a offset)
                            (Cesium.Cartesian3.add b offset)
                            (Cesium.Cartesian3.add c offset)
     = numInterpolationPoints a b c.
Proof.
  unfold numInterpolationPoints. split.
  - rewrite (distance_sym c b), (distance_sym b a), Rplus_comm. reflexivity.
  - rewrite !distance_translate. reflexivity.
Qed.

(** ** More on the handler *)

Section HandlerDetails.

Context {library : SplineLibrary}.
Variable version : Version.



End HandlerDetails.

(** ** More on sessions *)




Section SessionDetails.

Context {library : SplineLibrary}.
Variable version : Version.






End SessionDetails.

Section SessionProperties.

Context {library : SplineLibrary}.
Variable version : Version.




End SessionProperties.





(** ** More on the sampled curve *)





(** ** Input actions *)

Ltac event_cases :=
  unfold press, curveSetupInputActions, pointsSetupInputAction,
    removeAllInputActions, clearAll, setInputAction, removeInputAction;
  repeat match goal with
         | |- context [ScreenSpaceEventType.eq_dec ?a ?b] =>
             destruct (ScreenSpaceEventType.eq_dec a b);
             try discriminate; try congruence
         end;
  cbn [leftClickOf mouseMoveOf]; try reflexivity; try congruence.

Lemma press_right_click (handler : ScreenSpaceEventHandler)
      (button : ToolButton) :
  press handler button ScreenSpaceEventType.RIGHT_CLICK
  = handler ScreenSpaceEventType.RIGHT_CLICK.
Proof. destruct button as [[|]|]; event_cases. Qed.

Lemma press_left_click (handler : ScreenSpaceEventHandler)
      (button : ToolButton) :
  press handler button ScreenSpaceEventType.LEFT_CLICK
  = Some (leftClickOf button).
Proof. destruct button as [[|]|]; event_cases. Qed.

Lemma press_mouse_move (handler : ScreenSpaceEventHandler)
      (button : ToolButton) :
  press handler button ScreenSpaceEventType.MOUSE_MOVE
  = Some (mouseMoveOf button).
Proof. destruct button as [[|]|]; event_cases. Qed.

(** X15: once the toolbox has wired the right click, any sequence of clicks
    on the tool buttons leaves the right click bound to the removal of all
    entities, and binds the left click and the mouse move to the handlers
    of the tool whose button was clicked last. *)
Theorem last_button_wins (handler : ScreenSpaceEventHandler)
        (earlier : list ToolButton) (button : ToolButton) :
  let final := fold_left press (earlier ++ [button]) (clearAll handler) in
  final ScreenSpaceEventType.RIGHT_CLICK = Some RemoveAllEntities
  /\ final ScreenSpaceEventType.LEFT_CLICK = Some (leftClickOf button)
  /\ final ScreenSpaceEventType.MOUSE_MOVE = Some (mouseMoveOf button).
Proof.
  intros final. unfold final. rewrite fold_left_app. cbn [fold_left].
  split; [|split; [apply press_left_click|apply press_mouse_move]].
  rewrite press_right_click.
  assert (Hkeep : forall (buttons : list ToolButton) h,
             fold_left press buttons h ScreenSpaceEventType.RIGHT_CLICK
             = h ScreenSpaceEventType.RIGHT_CLICK).
  { induction buttons as [|b buttons IH]; intros h; [reflexivity|].
    cbn [fold_left]. rewrite IH. apply press_right_click. }
  rewrite Hkeep. event_cases.
Qed.

(** X16: the set-ups that begin with [removeAllInputActions] (the collection
    version of the curve tool, the points tool) unbind the left button down,
    up and double click and the middle click, whatever was bound to them;
    the array version of the curve tool leaves them as they were; and no
    set-up touches any of the nine other event types. *)
Theorem setup_footprint (handler : ScreenSpaceEventHandler)
        (type : ScreenSpaceEventType.t) :
  (In type [ScreenSpaceEventType.LEFT_DOWN; ScreenSpaceEventType.LEFT_UP;
            ScreenSpaceEventType.LEFT_DOUBLE_CLICK;
            ScreenSpaceEventType.MIDDLE_CLICK] ->
   press handler (CurveButton EntityCollections) type = None
   /\ press handler PointsButton type = None
   /\ press handler (CurveButton Arrays) type = handler type)
  /\ (~ In type [ScreenSpaceEventType.LEFT_CLICK;
                 ScreenSpaceEventType.MOUSE_MOVE;
                 ScreenSpaceEventType.LEFT_DOWN; ScreenSpaceEventType.LEFT_UP;
                 ScreenSpaceEventType.LEFT_DOUBLE_CLICK;
                 ScreenSpaceEventType.MIDDLE_CLICK] ->
      forall button : ToolButton, press handler button type = handler type).
Proof.
  split.
  - intros Hin. cbn [In] in Hin.
    destruct Hin as [<-|[<-|[<-|[<-|[]]]]]; repeat split; event_cases.
  - intros Hout button. cbn [In] in Hout.
    destruct type; try (exfalso; apply Hout; tauto);
      destruct button as [[|]|]; event_cases.
Qed.

(** X16 on the left button down, with an earlier binding in place, and on
    the wheel. *)
Lemma setup_footprint_witness :
  (press (setInputAction (fun _ => None) RemoveAllEntities
                         ScreenSpaceEventType.LEFT_DOWN)
         (CurveButton EntityCollections) ScreenSpaceEventType.LEFT_DOWN = None
   /\ press (setInputAction (fun _ => None) RemoveAllEntities
                            ScreenSpaceEventType.LEFT_DOWN)
            PointsButton ScreenSpaceEventType.LEFT_DOWN = None
   /\ press (setInputAction (fun _ => None) RemoveAllEntities
                            ScreenSpaceEventType.LEFT_DOWN)
            (CurveButton Arrays) ScreenSpaceEventType.LEFT_DOWN
      = setInputAction (fun _ => None) RemoveAllEntities
                       ScreenSpaceEventType.LEFT_DOWN
                       ScreenSpaceEventType.LEFT_DOWN)
  /\ forall button : ToolButton,
       press (fun _ => None) button ScreenSpaceEventType.WHEEL = None.
Proof.
  split.
  - apply (proj1 (setup_footprint
                    (setInputAction (fun _ => None) RemoveAllEntities
                                    ScreenSpaceEventType.LEFT_DOWN)
                    ScreenSpaceEventType.LEFT_DOWN)).
    left. reflexivity.
  - apply (proj2 (setup_footprint (fun _ => None)
                                  ScreenSpaceEventType.WHEEL)).
    cbn [In]. intros [H|[H|[H|[H|[H|[H|[]]]]]]]; discriminate H.
Defined.

(** ** Entity collections *)

Section Collections.

Import EntityCollection.

Lemma contains_false (collection : EntityCollection.t) (theId : nat) :
  contains collection theId = false <-> ~ In theId (map id collection).
Proof.
  unfold contains. induction collection as [|member collection IH].
  - simpl. tauto.
  - cbn [existsb map In]. rewrite Bool.orb_false_iff, IH.
    unfold hasId. rewrite Nat.eqb_neq. tauto.
Qed.

Lemma getById_removeById (collection : EntityCollection.t) (removed i : nat) :
  getById (removeById collection removed) i
  = if (i =? removed)%nat then None else getById collection i.
Proof.
  unfold getById, removeById.
  induction collection as [|member collection IH].
  - simpl. destruct (i =? removed)%nat; reflexivity.
  - cbn [filter find].
    destruct (hasId removed member) eqn:Hremoved; cbn [negb].
    + rewrite IH. destruct (i =? removed)%nat eqn:Hi; [reflexivity|].
      assert (Hmember : hasId i member = false).
      { unfold hasId in *. apply Nat.eqb_eq in Hremoved.
        apply Nat.eqb_neq in Hi. apply Nat.eqb_neq. lia. }
      rewrite Hmember. reflexivity.
    + cbn [find]. destruct (hasId i member) eqn:Hmember; [|exact IH].
      assert (Hi : (i =? removed)%nat = false).
      { unfold hasId in *. apply Nat.eqb_eq in Hmember.
        apply Nat.eqb_neq in Hremoved. apply Nat.eqb_neq. lia. }
      rewrite Hi. reflexivity.
Qed.

Lemma getById_id (collection : EntityCollection.t) (theId : nat)
      (found : Member) :
  getById collection theId = Some found ->
  id found = theId /\ In found collection.
Proof.
  unfold getById. intros Hfind. apply find_some in Hfind.
  destruct Hfind as [Hin Hid]. apply Nat.eqb_eq in Hid. tauto.
Qed.

Lemma removeById_fresh (collection : EntityCollection.t) (theId : nat) :
  ~ In theId (map id collection) -> removeById collection theId = collection.
Proof.
  unfold removeById. induction collection as [|member collection IH].
  - reflexivity.
  - cbn [map In filter]. intros Hfresh. unfold hasId at 1.
    replace (id member =? theId)%nat with false
      by (symmetry; apply Nat.eqb_neq; tauto).
    cbn [negb]. rewrite IH by tauto. reflexivity.
Qed.

Lemma removeById_added (collection : EntityCollection.t) (member : Member) :
  ~ In (id member) (map id collection) ->
  removeById (collection ++ [member]) (id member) = collection.
Proof.
  intros Hfresh. unfold removeById. rewrite filter_app.
  fold (removeById collection (id member)).
  rewrite removeById_fresh by exact Hfresh.
  cbn [filter]. unfold hasId. rewrite Nat.eqb_refl. cbn [negb].
  apply app_nil_r.
Qed.

Lemma getById_added (collection : EntityCollection.t) (member : Member) :
  ~ In (id member) (map id collection) ->
  getById (collection ++ [member]) (id member) = Some member.
Proof.
  unfold getById. induction collection as [|other collection IH].
  - intros _. cbn [app find]. unfold hasId. rewrite Nat.eqb_refl.
    reflexivity.
  - cbn [app find map In]. intros Hfresh. unfold hasId at 1.
    replace (id other =? id member)%nat with false
      by (symmetry; apply Nat.eqb_neq; tauto).
    apply IH. tauto.
Qed.

Lemma removeById_incl (collection : EntityCollection.t) (theId : nat) :
  incl (removeById collection theId) collection.
Proof. intros member Hin. apply filter_In in Hin. tauto. Qed.

Lemma NoDup_ids_removeById (collection : EntityCollection.t) (theId : nat) :
  NoDup (map id collection) -> NoDup (map id (removeById collection theId)).
Proof.
  unfold removeById. induction collection as [|member collection IH].
  - intros _. constructor.
  - cbn [map filter]. intros Hnodup.
    inversion Hnodup as [|i ids Hnotin Hrest]; subst.
    destruct (negb (hasId theId member)); [|apply IH; exact Hrest].
    cbn [map]. constructor; [|apply IH; exact Hrest].
    intros Hin. apply Hnotin. apply in_map_iff in Hin.
    destruct Hin as [other [Hid Hother]]. apply filter_In in Hother.
    apply in_map_iff. exists other. tauto.
Qed.

Lemma NoDup_ids_added (collection : EntityCollection.t) (member : Member) :
  NoDup (map id collection) -> ~ In (id member) (map id collection) ->
  NoDup (map id (collection ++ [member])).
Proof.
  intros Hnodup Hfresh. rewrite map_app. cbn [map].
  apply NoDup_app; [exact Hnodup|repeat constructor; intros []|].
  intros i Hin [Hi|[]]. subst i. contradiction.
Qed.

End Collections.

Lemma filter_length_lt {A : Type} (keep : A -> bool) (l : list A) (a : A) :
  In a l -> keep a = false -> (length (filter keep l) < length l)%nat.
Proof.
  induction l as [|b l IH]; intros Hin Hdrop; [contradiction|].
  cbn [filter length]. pose proof (filter_length_le keep l) as Hle.
  destruct Hin as [->|Hin].
  - rewrite Hdrop. lia.
  - specialize (IH Hin Hdrop). destruct (keep b); cbn [length]; lia.
Qed.

(** ** The points tool *)

Section PointsTool.

Import EntityCollection Points.

(** The handler, case by case. *)
Lemma handlePointsLeftClick_found (this : Points.t) (click : Click)
      (picked found : Member) :
  pickedEntity click = Some picked ->
  getById (entities (viewer this)) (id picked) = Some found ->
  exists this',
    handlePointsLeftClick this click = Some this'
    /\ entities (viewer this')
       = removeById (entities (viewer this)) (id picked)
    /\ pointEntities this' = removeById (pointEntities this) (id picked).
Proof.
  intros Hpicked Hfound. unfold pickedEntity in Hpicked.
  unfold handlePointsLeftClick.
  destruct (pickedObject click) as [[[member|]]|]; try discriminate.
  cbn [pickedId] in Hpicked. injection Hpicked as ->.
  cbn [viewer entities pointEntities]. rewrite Hfound.
  apply getById_id in Hfound. destruct Hfound as [Hid _].
  eexists. split; [reflexivity|].
  unfold remove. rewrite Hid. split; reflexivity.
Qed.

Lemma handlePointsLeftClick_stranger (this : Points.t) (click : Click)
      (picked : Member) :
  pickedEntity click = Some picked ->
  getById (entities (viewer this)) (id picked) = None ->
  exists this',
    handlePointsLeftClick this click = Some this'
    /\ entities (viewer this') = entities (viewer this)
    /\ pointEntities this' = pointEntities this.
Proof.
  intros Hpicked Hmissing. unfold pickedEntity in Hpicked.
  unfold handlePointsLeftClick.
  destruct (pickedObject click) as [[[member|]]|]; try discriminate.
  cbn [pickedId] in Hpicked. injection Hpicked as ->.
  cbn [viewer entities pointEntities]. rewrite Hmissing.
  eexists. split; [reflexivity|]. split; reflexivity.
Qed.

Lemma handlePointsLeftClick_ground (this : Points.t) (click : Click) :
  pickedEntity click = None ->
  handlePointsLeftClick this click
  = match cartesian click with
    | Some position =>
        let pointEntity :=
          {| id := guid click;
             entity := createPointEntity position Cesium.RED |} in
        if contains (entities (viewer this)) (guid click) then None
        else if contains (pointEntities this) (guid click) then None
             else Some
                    {| viewer :=
                         {| entities := entities (viewer this) ++ [pointEntity];
                            selectedEntity := None;
                            trackedEntity := trackedEntity (viewer this) |};
                       pointEntities := pointEntities this ++ [pointEntity] |}
    | None =>
        Some {| viewer := {| entities := entities (viewer this);
                             selectedEntity := None;
                             trackedEntity := trackedEntity (viewer this) |};
                pointEntities := pointEntities this |}
    end.
Proof.
  intros Hpicked. unfold pickedEntity in Hpicked.
  unfold handlePointsLeftClick.
  assert (Hbranch :
            match pickedObject click with
            | Some {| pickedId := Some _ |} => False
            | _ => True
            end).
  { destruct (pickedObject click) as [[[member|]]|]; try exact I.
    discriminate Hpicked. }
  destruct (pickedObject click) as [[[member|]]|]; try contradiction;
    destruct (cartesian click) as [position|]; try reflexivity;
    unfold add; cbn [viewer entities pointEntities id setEntities
                     setPointEntities selectedEntity trackedEntity];
    destruct (contains (entities (viewer this)) (guid click));
    try reflexivity;
    cbn [viewer entities pointEntities id setEntities
         setPointEntities selectedEntity trackedEntity];
    destruct (contains (pointEntities this) (guid click)); reflexivity.
Qed.

(** X17: a click that picks an entity the viewer holds removes that entity
    from the viewer and from the tool, whatever kind of entity it is, and
    adds nothing: afterwards its id is found in neither collection, every
    other id is found as before, and the viewer holds fewer entities. *)
Theorem picked_entity_removed (this : Points.t) (click : Click)
        (picked found : Member) :
  pickedEntity click = Some picked ->
  getById (entities (viewer this)) (id picked) = Some found ->
  exists this',
    handlePointsLeftClick this click = Some this'
    /\ (forall i,
           getById (entities (viewer this')) i
           = if (i =? id picked)%nat then None
             else getById (entities (viewer this)) i)
    /\ (forall i,
           getById (pointEntities this') i
           = if (i =? id picked)%nat then None
             else getById (pointEntities this) i)
    /\ (length (entities (viewer this')) < length (entities (viewer this)))%nat.
Proof.
  intros Hpicked Hfound.
  destruct (handlePointsLeftClick_found this click picked found Hpicked Hfound)
    as [this' [Hstep [Hv Hp]]].
  exists this'. split; [exact Hstep|]. rewrite Hv, Hp.
  split; [intros i; apply getById_removeById|].
  split; [intros i; apply getById_removeById|].
  apply getById_id in Hfound. destruct Hfound as [Hid Hin].
  unfold removeById. apply (filter_length_lt _ _ found Hin).
  unfold hasId. rewrite Hid, Nat.eqb_refl. reflexivity.
Qed.

(** X18: a click that picks an entity the viewer does not hold changes
    neither collection; in particular no point is added, even where a
    position could be picked. *)
Theorem picked_stranger_ignored (this : Points.t) (click : Click)
        (picked : Member) :
  pickedEntity click = Some picked ->
  getById (entities (viewer this)) (id picked) = None ->
  exists this',
    handlePointsLeftClick this click = Some this'
    /\ entities (viewer this') = entities (viewer this)
    /\ pointEntities this' = pointEntities this.
Proof. apply handlePointsLeftClick_stranger. Qed.

(** X19: a point added by a click on the ground and removed by a click on
    it leaves the viewer's entities and the tool's point entities as they
    were before the two clicks. *)
Theorem add_then_remove (this : Points.t) (ground again : Click)
        (position : Cartesian3) (picked : Member) :
  pickedEntity ground = None ->
  cartesian ground = Some position ->
  contains (entities (viewer this)) (guid ground) = false ->
  contains (pointEntities this) (guid ground) = false ->
  pickedEntity again = Some picked ->
  id picked = guid ground ->
  exists added removed,
    handlePointsLeftClick this ground = Some added
    /\ In {| id := guid ground;
             entity := createPointEntity position Cesium.RED |}
          (pointEntities added)
    /\ handlePointsLeftClick added again = Some removed
    /\ entities (viewer removed) = entities (viewer this)
    /\ pointEntities removed = pointEntities this.
Proof.
  intros Hground Hposition Hfresh Hfresh' Hagain Hid.
  pose proof (handlePointsLeftClick_ground this ground Hground) as Hadd.
  rewrite Hposition in Hadd. cbv zeta in Hadd.
  rewrite Hfresh, Hfresh' in Hadd.
  eexists.
  assert (Hfound :
            getById (entities (viewer this)
                     ++ [{| id := guid ground;
                            entity := createPointEntity position Cesium.RED |}])
                    (id picked)
            = Some {| id := guid ground;
                      entity := createPointEntity position Cesium.RED |}).
  { rewrite Hid.
    apply (getById_added (entities (viewer this))
             {| id := guid ground;
                entity := createPointEntity position Cesium.RED |}).
    apply contains_false. exact Hfresh. }
  match type of Hadd with
  | _ = Some ?s =>
      destruct (handlePointsLeftClick_found s again picked _ Hagain Hfound)
        as [removed [Hstep [Hv Hp]]]
  end.
  exists removed. split; [exact Hadd|].
  split; [cbn [pointEntities]; apply in_or_app; right; left; reflexivity|].
  split; [exact Hstep|].
  cbn [viewer entities pointEntities] in Hv, Hp.
  rewrite Hv, Hp, Hid.
  split.
  - apply (removeById_added (entities (viewer this))
             {| id := guid ground;
                entity := createPointEntity position Cesium.RED |}).
    apply contains_false. exact Hfresh.
  - apply (removeById_added (pointEntities this)
             {| id := guid ground;
                entity := createPointEntity position Cesium.RED |}).
    apply contains_false. exact Hfresh'.
Qed.

End PointsTool.

Section PointsSessions.

Import EntityCollection Points.


Lemma handlePointsLeftClick_consistent (this this' : Points.t)
      (click : Click) :
  consistent this -> handlePointsLeftClick this click = Some this' ->
  consistent this'.
Proof.
  intros [Hv [Hp [Hincl Hred]]] Hstep.
  destruct (pickedEntity click) as [picked|] eqn:Hpicked.
  - destruct (getById (entities (viewer this)) (id picked))
      as [found|] eqn:Hfound.
    + destruct (handlePointsLeftClick_found this click picked found
                  Hpicked Hfound) as [this1 [Hstep1 [Hv1 Hp1]]].
      rewrite Hstep1 in Hstep. injection Hstep as <-.
      unfold consistent. rewrite Hv1, Hp1.
      split; [apply NoDup_ids_removeById; exact Hv|].
      split; [apply NoDup_ids_removeById; exact Hp|].
      split.
      * intros member Hin. unfold removeById in *.
        apply filter_In in Hin. apply filter_In.
        split; [apply Hincl; tauto|tauto].
      * apply Forall_forall. intros member Hin.
        apply removeById_incl in Hin.
        rewrite Forall_forall in Hred. apply Hred. exact Hin.
    + destruct (handlePointsLeftClick_stranger this click picked
                  Hpicked Hfound) as [this1 [Hstep1 [Hv1 Hp1]]].
      rewrite Hstep1 in Hstep. injection Hstep as <-.
      unfold consistent. rewrite Hv1, Hp1. tauto.
  - rewrite (handlePointsLeftClick_ground this click Hpicked) in Hstep.
    destruct (cartesian click) as [position|].
    + cbv zeta in Hstep.
      destruct (contains (entities (viewer this)) (guid click)) eqn:Hfresh;
        [discriminate|].
      destruct (contains (pointEntities this) (guid click)) eqn:Hfresh';
        [discriminate|].
      injection Hstep as <-. unfold consistent.
      cbn [viewer entities pointEntities].
      apply contains_false in Hfresh. apply contains_false in Hfresh'.
      split; [apply NoDup_ids_added; assumption|].
      split; [apply NoDup_ids_added; assumption|].
      split.
      * intros member Hin. apply in_app_or in Hin. apply in_or_app.
        destruct Hin as [Hin|Hin]; [left; apply Hincl; exact Hin|right].
        exact Hin.
      * apply Forall_app. split; [exact Hred|].
        constructor; [|constructor]. exists position. reflexivity.
    + injection Hstep as <-. unfold consistent.
      cbn [viewer entities pointEntities]. tauto.
Qed.

(** X20: over any session of left clicks that no handler aborts, the tool
    and the viewer stay consistent: no two entities share an id, and every
    point entity of the tool is a red point that the viewer holds. *)
Theorem points_session_consistent (clicks : list Click) :
  forall this this' : Points.t,
    consistent this -> run this clicks = Some this' -> consistent this'.
Proof.
  induction clicks as [|click clicks IH]; intros this this' Hcons Hrun.
  - injection Hrun as <-. exact Hcons.
  - cbn [run] in Hrun.
    destruct (handlePointsLeftClick this click) as [this1|] eqn:Hstep;
      [|discriminate].
    apply (IH this1 this'); [|exact Hrun].
    apply (handlePointsLeftClick_consistent this this1 click); assumption.
Qed.


End PointsSessions.

(** *** The properties of the points tool on a tool with one point *)

Lemma sampleTool_consistent : Points.consistent sampleTool.
Proof.
  unfold Points.consistent, sampleTool.
  cbn [Points.viewer Points.entities Points.pointEntities map].
  split; [repeat constructor; intros []|].
  split; [repeat constructor; intros []|].
  split; [apply incl_refl|].
  repeat constructor. exists origin. reflexivity.
Qed.

(** X17 on a click on the point the tool holds. *)
Lemma picked_entity_removed_witness :
  exists this',
    Points.handlePointsLeftClick sampleTool clickOnSamplePoint = Some this'
    /\ (forall i,
           EntityCollection.getById (Points.entities (Points.viewer this')) i
           = if (i =? EntityCollection.id samplePoint)%nat then None
             else EntityCollection.getById
                    (Points.entities (Points.viewer sampleTool)) i)
    /\ (forall i,
           EntityCollection.getById (Points.pointEntities this') i
           = if (i =? EntityCollection.id samplePoint)%nat then None
             else EntityCollection.getById (Points.pointEntities sampleTool) i)
    /\ (length (Points.entities (Points.viewer this'))
        < length (Points.entities (Points.viewer sampleTool)))%nat.
Proof.
  apply (picked_entity_removed sampleTool clickOnSamplePoint samplePoint
                               samplePoint); reflexivity.
Defined.

(** X18 on a click on a point the viewer does not hold. *)
Lemma picked_stranger_ignored_witness :
  exists this',
    Points.handlePointsLeftClick sampleTool clickOnNewPoint = Some this'
    /\ Points.entities (Points.viewer this')
       = Points.entities (Points.viewer sampleTool)
    /\ Points.pointEntities this' = Points.pointEntities sampleTool.
Proof.
  apply (picked_stranger_ignored sampleTool clickOnNewPoint
           {| EntityCollection.id := 8;
              EntityCollection.entity :=
                createPointEntity origin Cesium.RED |});
    reflexivity.
Defined.

(** X19 on a click on the ground and a click on the point it created. *)
Lemma add_then_remove_witness :
  exists added removed,
    Points.handlePointsLeftClick sampleTool clickOnGround = Some added
    /\ In {| EntityCollection.id := Points.guid clickOnGround;
             EntityCollection.entity := createPointEntity origin Cesium.RED |}
          (Points.pointEntities added)
    /\ Points.handlePointsLeftClick added clickOnNewPoint = Some removed
    /\ Points.entities (Points.viewer removed)
       = Points.entities (Points.viewer sampleTool)
    /\ Points.pointEntities removed = Points.pointEntities sampleTool.
Proof.
  apply (add_then_remove sampleTool clickOnGround clickOnNewPoint origin
           {| EntityCollection.id := 8;
              EntityCollection.entity :=
                createPointEntity origin Cesium.RED |});
    reflexivity.
Defined.

(** X20 after one click on the ground. *)
Lemma points_session_consistent_witness :
  Points.consistent
    {| Points.viewer :=
         {| Points.entities :=
              [samplePoint;
               {| EntityCollection.id := 8;
                  EntityCollection.entity :=
                    createPointEntity origin Cesium.RED |}];
            Points.selectedEntity := None;
            Points.trackedEntity := None |};
       Points.pointEntities :=
         [samplePoint;
          {| EntityCollection.id := 8;
             EntityCollection.entity := createPointEntity origin Cesium.RED |}]
    |}.
Proof.
  apply (points_session_consistent [clickOnGround] sampleTool);
    [exact sampleTool_consistent|reflexivity].
Defined.


(** ** The overlay dot *)

(** X22: when the mouse is over nothing, the handler of the points tool
    hides the dot and writes no other property, while the handlers of the
    curve tool leave the style as it is; and no handler of the curve tool
    ever hides a dot that is shown. *)
Theorem dot_hidden_by_points_only (style : Style.t) (move : Move) :
  (movePicked move = false ->
   (exists style',
       handleMouseMove PointsButton style move = Returned style'
       /\ style' Style.Display = Some Style.Keyword_none
       /\ forall property,
            property <> Style.Display -> style' property = style property)
   /\ forall version,
        handleMouseMove (CurveButton version) style move = Returned style)
  /\ (forall version,
         styleOf (handleMouseMove (CurveButton version) style move)
                 Style.Display = Some Style.Keyword_none ->
         style Style.Display = Some Style.Keyword_none).
Proof.
  split.
  - intros Hmiss. split.
    + eexists. cbn [handleMouseMove]. unfold handlePointsMouseMove.
      rewrite Hmiss. split; [reflexivity|]. split; [reflexivity|].
      intros property Hother. unfold Style.set.
      destruct (Style.eq_dec property Style.Display); [contradiction|].
      reflexivity.
    + intros [|]; cbn [handleMouseMove];
        unfold handleCurveMouseMove_cssText, handleCurveMouseMove;
        rewrite Hmiss; reflexivity.
  - intros [|]; cbn [handleMouseMove];
      unfold handleCurveMouseMove_cssText, handleCurveMouseMove,
        updateMovingDot;
      destruct (movePicked move); cbn [negb styleOf]; try tauto;
      destruct (moveCartesian move); cbn [styleOf]; try tauto;
      destruct (moveScreenPosition move) as [[x y]|]; cbn [styleOf];
      try tauto; intros H; discriminate H.
Qed.

(** X22 on the style the toolbox gives the overlay, whose dot is hidden. *)
Lemma dot_hidden_by_points_only_witness :
  ((exists style',
       handleMouseMove PointsButton overlayStyle
         {| movePicked := false; moveCartesian := None;
            moveScreenPosition := None |} = Returned style'
       /\ style' Style.Display = Some Style.Keyword_none
       /\ forall property,
            property <> Style.Display ->
            style' property = overlayStyle property)
   /\ forall version,
        handleMouseMove (CurveButton version) overlayStyle
          {| movePicked := false; moveCartesian := None;
             moveScreenPosition := None |} = Returned overlayStyle)
  /\ overlayStyle Style.Display = Some Style.Keyword_none.
Proof.
  split.
  - apply (proj1 (dot_hidden_by_points_only overlayStyle
                    {| movePicked := false; moveCartesian := None;
                       moveScreenPosition := None |})).
    reflexivity.
  - apply (proj2 (dot_hidden_by_points_only overlayStyle
                    {| movePicked := false; moveCartesian := None;
                       moveScreenPosition := None |}) Arrays).
    reflexivity.
Defined.

(** X23: when the mouse is over a position that projects to the screen
    point [(x, y)], every handler shows the dot with its left edge at
    [x - 5] and its top edge at [y - 5] pixels.  [updateMovingDot] keeps
    the position, pointer-events and padding properties of the overlay;
    the [cssText] assignment of [threePointsCurve.js] drops them. *)
Theorem dot_follows_mouse (style : Style.t) (move : Move)
        (cartesian : Cartesian3) (x y : R) :
  movePicked move = true ->
  moveCartesian move = Some cartesian ->
  moveScreenPosition move = Some (x, y) ->
  (forall button,
      exists style',
        handleMouseMove button style move = Returned style'
        /\ style' Style.Display = Some Style.Keyword_block
        /\ style' Style.Left = Some (Style.Px (x - 5))
        /\ style' Style.Top = Some (Style.Px (y - 5)))
  /\ (forall button,
         button <> CurveButton Arrays ->
         forall property,
           In property [Style.Position; Style.PointerEvents; Style.Padding] ->
           styleOf (handleMouseMove button style move) property
           = style property)
  /\ (forall property,
         In property [Style.Position; Style.PointerEvents; Style.Padding] ->
         styleOf (handleMouseMove (CurveButton Arrays) style move) property
         = None).
Proof.
  intros Hpicked Hcartesian Hscreen.
  split; [|split].
  - intros [[|]|]; cbn [handleMouseMove];
      unfold handleCurveMouseMove_cssText, handleCurveMouseMove,
        handlePointsMouseMove, updateMovingDot;
      rewrite Hpicked, Hcartesian, Hscreen; cbn [negb];
      eexists; (split; [reflexivity|]); repeat split; reflexivity.
  - intros [[|]|] Hbutton property Hin; try contradiction;
      cbn [handleMouseMove];
      unfold handleCurveMouseMove, handlePointsMouseMove, updateMovingDot;
      rewrite Hpicked, Hcartesian, Hscreen; cbn [styleOf In] in *;
      destruct Hin as [<-|[<-|[<-|[]]]]; reflexivity.
  - intros property Hin. cbn [handleMouseMove].
    unfold handleCurveMouseMove_cssText.
    rewrite Hpicked, Hcartesian, Hscreen. cbn [negb styleOf In] in *.
    destruct Hin as [<-|[<-|[<-|[]]]]; reflexivity.
Qed.

(** X23 on the style the toolbox gives the overlay: the array version of
    the curve tool loses [position: absolute]. *)
Lemma dot_follows_mouse_witness :
  overlayStyle Style.Position = Some Style.Keyword_absolute
  /\ styleOf (handleMouseMove (CurveButton Arrays) overlayStyle
                {| movePicked := true; moveCartesian := Some origin;
                   moveScreenPosition := Some (100, 50) |}) Style.Position
     = None.
Proof.
  split; [reflexivity|].
  apply (proj2 (proj2 (dot_follows_mouse overlayStyle
                         {| movePicked := true; moveCartesian := Some origin;
                            moveScreenPosition := Some (100, 50) |}
                         origin 100 50 eq_refl eq_refl eq_refl))).
  left. reflexivity.
Defined.

(** X24: when the position under the mouse does not project to the screen,
    reading the screen position throws.  [updateMovingDot] has by then set
    the display to block, so the dot is shown where it was last put; the
    handler of [threePointsCurve.js] throws before it writes anything. *)
Theorem dot_when_projection_fails (style : Style.t) (move : Move)
        (cartesian : Cartesian3) :
  movePicked move = true ->
  moveCartesian move = Some cartesian ->
  moveScreenPosition move = None ->
  handleMouseMove (CurveButton Arrays) style move = Threw style
  /\ forall button,
       button <> CurveButton Arrays ->
       exists style',
         handleMouseMove button style move = Threw style'
         /\ style' Style.Display = Some Style.Keyword_block
         /\ forall property,
              property <> Style.Display -> style' property = style property.
Proof.
  intros Hpicked Hcartesian Hscreen. split.
  - cbn [handleMouseMove]. unfold handleCurveMouseMove_cssText.
    rewrite Hpicked, Hcartesian, Hscreen. reflexivity.
  - intros [[|]|] Hbutton; try contradiction; cbn [handleMouseMove];
      unfold handleCurveMouseMove, handlePointsMouseMove, updateMovingDot;
      rewrite Hpicked, Hcartesian, Hscreen;
      eexists; (split; [reflexivity|]); (split; [reflexivity|]);
      intros property Hother; unfold Style.set;
      destruct (Style.eq_dec property Style.Display);
      try contradiction; reflexivity.
Qed.

(** X24 on the style the toolbox gives the overlay. *)
Lemma dot_when_projection_fails_witness :
  handleMouseMove (CurveButton Arrays) overlayStyle
    {| movePicked := true; moveCartesian := Some origin;
       moveScreenPosition := None |} = Threw overlayStyle.
Proof.
  apply (proj1 (dot_when_projection_fails overlayStyle
                  {| movePicked := true; moveCartesian := Some origin;
                     moveScreenPosition := None |}
                  origin eq_refl eq_refl eq_refl)).
Defined.
